(** * pandas.core.groupby.base

    A shallow embedding of [pandas/core/groupby/base.py]: the tables that
    classify the names of groupby operations, and the two mixins
    ([ShallowMixin], [GotItemMixin]) that rebuild a grouped view around
    other data.

    Python's [frozenset] of names is a [gset string]; [|] on frozensets is
    [∪]; a keyword dictionary is a [gmap string _]. *)

From Stdlib Require Import ZArith.
From stdpp Require Import gmap strings list fin_maps.

Local Open Scope string_scope.

(** ** The allowlists and kernel tables *)

Module Kernels.

(** [frozenset([...])] on a list literal. *)
Definition frozenset (names : list string) : gset string := list_to_set names.

Definition plotting_methods : gset string := frozenset ["plot"; "hist"].

Definition common_apply_allowlist : gset string :=
  frozenset
    [ "quantile";
      "fillna";
      "mad";
      "take";
      "idxmax";
      "idxmin";
      "tshift";
      "skew";
      "corr";
      "cov";
      "diff" ]
  ∪ plotting_methods.

Definition series_apply_allowlist : gset string :=
  (common_apply_allowlist
   ∪ list_to_set
       ["nlargest"; "nsmallest"; "is_monotonic_increasing"; "is_monotonic_decreasing"])
  ∪ frozenset ["dtype"; "unique"].

Definition dataframe_apply_allowlist : gset string :=
  common_apply_allowlist ∪ frozenset ["dtypes"; "corrwith"].

Definition cythonized_kernels : gset string :=
  frozenset ["cumprod"; "cumsum"; "shift"; "cummin"; "cummax"].

Definition cython_cast_blocklist : gset string :=
  frozenset ["rank"; "count"; "size"; "idxmin"; "idxmax"].

Definition reduction_kernels : gset string :=
  frozenset
    [ "all";
      "any";
      "corrwith";
      "count";
      "first";
      "idxmax";
      "idxmin";
      "last";
      "mad";
      "max";
      "mean";
      "median";
      "min";
      "ngroup";
      "nth";
      "nunique";
      "prod";
      "quantile";
      "sem";
      "size";
      "skew";
      "std";
      "sum";
      "var" ].

Definition transformation_kernels : gset string :=
  frozenset
    [ "backfill";
      "bfill";
      "cumcount";
      "cummax";
      "cummin";
      "cumprod";
      "cumsum";
      "diff";
      "ffill";
      "fillna";
      "pad";
      "pct_change";
      "rank";
      "shift";
      "tshift" ].

Definition groupby_other_methods : gset string :=
  frozenset
    [ "agg";
      "aggregate";
      "apply";
      "boxplot";
      "corr";
      "cov";
      "describe";
      "dtypes";
      "expanding";
      "ewm";
      "filter";
      "get_group";
      "groups";
      "head";
      "hist";
      "indices";
      "ndim";
      "ngroups";
      "ohlc";
      "pipe";
      "plot";
      "resample";
      "rolling";
      "tail";
      "take";
      "transform";
      "sample" ].

Definition transform_kernel_allowlist : gset string :=
  reduction_kernels ∪ transformation_kernels.

(** [name in table], as the dispatcher asks it. *)
Definition member (name : string) (table : gset string) : bool :=
  bool_decide (name ∈ table).

End Kernels.

(** ** Python values, exceptions and results *)

(** The values that occur as selection keys, axis labels and attribute
    values. *)
#[warnings="-register-all"] Inductive pyval : Type :=
| PInt (z : Z)
| PStr (s : string)
| PList (items : list pyval)
| PTuple (items : list pyval)
| PSlice (start stop : Z).

Fixpoint pyval_eq_dec (x y : pyval) {struct x} : {x = y} + {x <> y}.
Proof.
  destruct x, y; try (right; discriminate).
  - destruct (Z.eq_dec z z0); [left; congruence | right; congruence].
  - destruct (String.string_dec s s0); [left; congruence | right; congruence].
  - destruct (List.list_eq_dec pyval_eq_dec items items0);
      [left; congruence | right; congruence].
  - destruct (List.list_eq_dec pyval_eq_dec items items0);
      [left; congruence | right; congruence].
  - destruct (Z.eq_dec start start0), (Z.eq_dec stop stop0);
      [left; congruence | right; congruence ..].
Defined.

#[global] Instance pyval_eq_decision : EqDecision pyval := pyval_eq_dec.

(** Modelled from the spec: [is_scalar] and [is_list_like] are imported from
    [pandas.core.dtypes.common], which is not part of this file.  The spec
    speaks of "a single scalar" and of "a sequence of identifiers": integers
    and strings are scalars, lists and tuples are list-like, and a slice is
    neither. *)
Definition is_scalar (key : pyval) : bool :=
  match key with
  | PInt _ | PStr _ => true
  | PList _ | PTuple _ | PSlice _ _ => false
  end.

(** Modelled from the spec: [is_list_like], the companion of [is_scalar]
    from the same module outside this file; a string is not list-like. *)
Definition is_list_like (key : pyval) : bool :=
  match key with
  | PList _ | PTuple _ => true
  | PInt _ | PStr _ | PSlice _ _ => false
  end.

(** An exception is represented by the builtin class that an [except]
    clause matches it against. *)
Inductive exn : Type :=
| IndexError
| KeyError
| AttributeError
| TypeError
| ValueError.

#[global] Instance exn_eq_decision : EqDecision exn.
Proof. solve_decision. Defined.

(** The outcome of a Python expression: a value, or a raised exception. *)
Inductive result (A : Type) : Type :=
| Ok (a : A)
| Raise (e : exn).

Arguments Ok {A} a.
Arguments Raise {A} e.

#[global] Instance result_ret : MRet result := fun _ a => Ok a.

#[global] Instance result_bind : MBind result := fun _ _ k m =>
  match m with
  | Ok a => k a
  | Raise e => Raise e
  end.

(** [try: body except cls: handler], with [matches] the test of [cls]. *)
Definition try_except {A} (body : result A) (matches : exn → bool)
    (handler : result A) : result A :=
  match body with
  | Ok a => Ok a
  | Raise e => if matches e then handler else Raise e
  end.

Definition is_IndexError (e : exn) : bool :=
  match e with
  | IndexError => true
  | _ => false
  end.

(** Modelled from the spec: the tabular container is an external
    collaborator.  It answers a dimensionality query ([ndim], 1 for a
    series and 2 for a table) and exposes the identifiers of its
    information axis, against which [key in container] is decided. *)
Record frame : Type := mkFrame {
  f_ndim : Z;
  f_info_axis : list pyval
}.

(** Modelled from the spec: [key in data], the membership test of the
    container, looks the key up among the identifiers of its information
    axis. *)
Definition contains (key : pyval) (data : frame) : bool :=
  bool_decide (key ∈ f_info_axis data).

(** ** ShallowMixin *)

Module ShallowMixin.

(** What [_shallow_copy] is handed as [obj]: raw data, or an object that
    itself wraps data.  A view carries its class ([type(self)]), the wrapped
    object ([self.obj]) and its instance attributes. *)
Inductive pyobj : Type :=
| Data (d : frame)
| Grouped (w : view)
with view : Type :=
| mkView (cls : string) (obj : pyobj) (attrs : gmap string pyval).

Definition v_type (w : view) : string := let '(mkView cls _ _) := w in cls.
Definition v_obj (w : view) : pyobj := let '(mkView _ obj _) := w in obj.
Definition v_attrs (w : view) : gmap string pyval := let '(mkView _ _ attrs) := w in attrs.

(** [getattr(self, attr)]: [AttributeError] when the attribute is missing. *)
Definition getattr (self : view) (attr : string) : result pyval :=
  match v_attrs self !! attr with
  | Some x => Ok x
  | None => Raise AttributeError
  end.

Section Classes.

(** The class table, which lives outside this file: the [_attributes] list
    of a class, the class its [_constructor] property returns, and the
    subclass relation behind [isinstance]. *)
Variable _attributes : string → list string.
Variable _constructor : string → string.
Variable issubclass : string → string → bool.

Definition isinstance (obj : pyobj) (cls : string) : bool :=
  match obj with
  | Data _ => false
  | Grouped w => issubclass (v_type w) cls
  end.

(** [obj.obj], reached only after [isinstance] has answered yes. *)
Definition unwrap (obj : pyobj) : pyobj :=
  match obj with
  | Data d => Data d
  | Grouped w => v_obj w
  end.

(** The loop over [self._attributes]: an attribute that [kwargs] does not
    hold yet is read from [self] and stored.  (The warning filter around
    the read changes no value.) *)
Fixpoint fill_kwargs (self : view) (names : list string)
    (kwargs : gmap string pyval) : result (gmap string pyval) :=
  match names with
  | [] => Ok kwargs
  | attr :: rest =>
      match kwargs !! attr with
      | Some _ => fill_kwargs self rest kwargs
      | None =>
          x ← getattr self attr;
          fill_kwargs self rest (<[attr := x]> kwargs)
      end
  end.

(** Modelled from the spec: the constructors of the concrete classes are
    not in this file; the new instance wraps the data it is given and holds
    the keyword arguments as its configuration. *)
Definition construct (cls : string) (obj : pyobj) (kwargs : gmap string pyval) : view :=
  mkView cls obj kwargs.

Definition _shallow_copy (self : view) (obj : pyobj)
    (kwargs : gmap string pyval) : result view :=
  let ctor := _constructor (v_type self) in
  let obj := if isinstance obj ctor then unwrap obj else obj in
  kwargs ← fill_kwargs self (_attributes (v_type self)) kwargs;
  Ok (construct ctor obj kwargs).

End Classes.

End ShallowMixin.

(** ** GotItemMixin *)

Module GotItemMixin.

Section Grouping.

(** The grouping object is an external collaborator: [self._groupby[key]]
    either gives a grouping or raises.  [_attributes] is the class table's
    list of configuration attributes. *)
Variable grouping : Type.
Variable groupby_getitem : grouping → pyval → result grouping.
Variable _attributes : string → list string.

(** A grouped view: its class, the data it wraps ([self.obj]), the grouping
    it delegates to ([self._groupby]), the view it was derived from, its
    configuration attributes, its cache and its selection ([None] when no
    key narrowed it). *)
#[warnings="-register-all"] Inductive view : Type := mkView {
  v_type : string;
  v_obj : frame;
  v_groupby : grouping;
  v_parent : option view;
  v_attrs : gmap string pyval;
  v_cache : gmap string pyval;
  v_selection : option pyval
}.

(** [getattr(self, attr)]: [AttributeError] when the attribute is missing. *)
Definition getattr (self : view) (attr : string) : result pyval :=
  match v_attrs self !! attr with
  | Some x => Ok x
  | None => Raise AttributeError
  end.

(** [{attr: getattr(self, attr) for attr in names}], built left to right. *)
Fixpoint snapshot (self : view) (names : list string)
    (acc : gmap string pyval) : result (gmap string pyval) :=
  match names with
  | [] => Ok acc
  | attr :: rest =>
      x ← getattr self attr;
      snapshot self rest (<[attr := x]> acc)
  end.

(** Modelled from the spec: the constructors of the concrete classes are
    not in this file; the new instance wraps the subset, holds the
    grouping, the parent and the keyword arguments as its configuration,
    and has an empty cache and no selection.  The call site is
    [type(self)(subset, groupby=groupby, parent=self, **kwargs)]: Python
    raises [TypeError] when [kwargs] names [groupby] or [parent] again. *)
Definition construct (cls : string) (subset : frame) (groupby : grouping)
    (parent : view) (kwargs : gmap string pyval) : result view :=
  if bool_decide ("groupby" ∈ dom kwargs ∨ "parent" ∈ dom kwargs)
  then Raise TypeError
  else Ok (mkView cls subset groupby (Some parent) kwargs ∅ None).

(** Modelled from the spec: [_reset_cache] is inherited from
    [PandasObject]; it empties the cache of the instance. *)
Definition _reset_cache (self : view) : view :=
  mkView (v_type self) (v_obj self) (v_groupby self) (v_parent self)
    (v_attrs self) ∅ (v_selection self).

(** [self._selection = key]. *)
Definition set_selection (self : view) (key : pyval) : view :=
  mkView (v_type self) (v_obj self) (v_groupby self) (v_parent self)
    (v_attrs self) (v_cache self) (Some key).

(** The test that guards [self._selection = key]. *)
Definition records_selection (subset : frame) (key : pyval) : bool :=
  (f_ndim subset =? 2)%Z
  && (is_scalar key && contains key subset || is_list_like key).

Definition _gotitem (self : view) (key : pyval) (ndim : Z)
    (subset : option frame) : result view :=
  let subset := match subset with
                | None => v_obj self
                | Some s => s
                end in
  kwargs ← snapshot self (_attributes (v_type self)) ∅;
  groupby ← try_except (groupby_getitem (v_groupby self) key)
              is_IndexError (Ok (v_groupby self));
  new ← construct (v_type self) subset groupby self kwargs;
  let new := _reset_cache new in
  if records_selection subset key
  then Ok (set_selection new key)
  else Ok new.

End Grouping.

Arguments mkView {grouping}.
Arguments v_type {grouping}.
Arguments v_obj {grouping}.
Arguments v_groupby {grouping}.
Arguments v_parent {grouping}.
Arguments v_attrs {grouping}.
Arguments v_cache {grouping}.
Arguments v_selection {grouping}.
Arguments getattr {grouping}.
Arguments snapshot {grouping}.
Arguments construct {grouping}.
Arguments _reset_cache {grouping}.
Arguments set_selection {grouping}.
Arguments _gotitem {grouping}.

End GotItemMixin.

(** ** Scenarios

    Concrete class tables, containers, views and a grouping, used to run
    the two mixins. *)

Module Scenarios.

Definition table : frame := mkFrame 2 [PStr "A"; PStr "B"; PStr "C"].

Definition column : frame := mkFrame 1 [PInt 0; PInt 1; PInt 2].

(** Two unrelated window classes with the same configuration attributes;
    [_constructor] answers the class itself. *)
Definition window_attributes (cls : string) : list string :=
  ["window"; "min_periods"].

Definition window_constructor (cls : string) : string := cls.

Definition window_issubclass (cls base : string) : bool := String.eqb cls base.

Definition window_config (window : Z) : gmap string pyval :=
  <["window" := PInt window]> (<["min_periods" := PInt 1]> ∅).

Definition rolling : ShallowMixin.view :=
  ShallowMixin.mkView "Rolling" (ShallowMixin.Data table) (window_config 3).

Definition expanding : ShallowMixin.view :=
  ShallowMixin.mkView "Expanding" (ShallowMixin.Data column) (window_config 1).

Definition rolling_other : ShallowMixin.view :=
  ShallowMixin.mkView "Rolling" (ShallowMixin.Data column) (window_config 7).

(** A grouping over the columns of a table that remembers the column
    picked from it: picking again is out of range, and an unknown column
    is a lookup failure. *)
Record picked_grouping : Type := mkPicked {
  g_columns : list pyval;
  g_picked : option pyval
}.

Definition picked_getitem (g : picked_grouping) (key : pyval)
    : result picked_grouping :=
  match g_picked g with
  | Some _ => Raise IndexError
  | None =>
      if bool_decide (key ∈ g_columns g)
      then Ok (mkPicked (g_columns g) (Some key))
      else Raise KeyError
  end.

Definition fresh_grouping : picked_grouping :=
  mkPicked [PStr "A"; PStr "B"; PStr "C"] None.

Definition narrowed_grouping : picked_grouping :=
  mkPicked [PStr "A"; PStr "B"; PStr "C"] (Some (PStr "A")).

Definition root_view (g : picked_grouping) : GotItemMixin.view picked_grouping :=
  GotItemMixin.mkView "RollingGroupby" table g None (window_config 3) ∅ None.

End Scenarios.

(** ** The selection rule in the words of the specification

    "The data is two-dimensional and the key is either a single scalar
    contained in the data's column set or a sequence of such identifiers."
    Kept apart from [GotItemMixin.records_selection], which is the test
    the code makes. *)
Definition spec_records_selection (subset : frame) (key : pyval) : bool :=
  (f_ndim subset =? 2)%Z
  && (is_scalar key && contains key subset
      || match key with
         | PList ids | PTuple ids =>
             forallb (fun id => is_scalar id && contains id subset) ids
         | _ => false
         end).

(** ** The unwrapping rule in the words of the specification

    "If the replacement data is itself already a grouped view, unwrap it to
    its underlying data object first": whenever a copy is made around a
    view, the copy wraps what that view wraps. *)
Definition spec_unwraps_views (_attributes : string → list string)
    (_constructor : string → string) (issubclass : string → string → bool) : Prop :=
  ∀ (self w new : ShallowMixin.view) (kwargs : gmap string pyval),
    ShallowMixin._shallow_copy _attributes _constructor issubclass
      self (ShallowMixin.Grouped w) kwargs = Ok new →
    ShallowMixin.v_obj new = ShallowMixin.v_obj w.

(** ** The declared part of an attribute dictionary

    The entries of [attrs] whose names a class lists in [_attributes]. *)
Definition declared (names : list string) (attrs : gmap string pyval)
    : gmap string pyval :=
  filter (λ entry, entry.1 ∈ names) attrs.

(** * Facts about the kernel tables *)

Module KernelsFacts.

Import Kernels.

(** A closed question about the literal tables is settled by evaluating
    its decision procedure. *)
Ltac by_table := apply (bool_decide_unpack _); vm_compute; exact I.

(** Membership in a table written out as a list of alternatives. *)
Ltac absent :=
  let H := fresh in
  intros H; decompose [or] H; first [discriminate | contradiction].
Ltac present := solve [repeat first [left; reflexivity | right]].

Lemma member_spec (name : string) (table : gset string) :
  member name table = true ↔ name ∈ table.
Proof. unfold member. apply bool_decide_eq_true. Qed.

Lemma frozenset_spec (name : string) (names : list string) :
  name ∈ frozenset names ↔ name ∈ names.
Proof. unfold frozenset. apply elem_of_list_to_set. Qed.

(** C1: the reduction table and the transformation table are disjoint: a
    name of the reduction table is not in the transformation table, and
    conversely, so that no name is a member of both. *)
Theorem reduction_transformation_disjoint :
  reduction_kernels ## transformation_kernels
  ∧ ∀ n : string,
      (n ∈ reduction_kernels → n ∉ transformation_kernels)
      ∧ (n ∈ transformation_kernels → n ∉ reduction_kernels)
      ∧ member n reduction_kernels && member n transformation_kernels = false.
Proof.
  assert (Hdisj : reduction_kernels ## transformation_kernels) by by_table.
  split; [exact Hdisj |].
  intros n. split; [| split].
  - intros Hr Ht. exact (Hdisj n Hr Ht).
  - intros Ht Hr. exact (Hdisj n Hr Ht).
  - apply andb_false_iff.
    destruct (member n reduction_kernels) eqn:Hr; [right | left; reflexivity].
    apply not_true_is_false. intros Ht.
    apply member_spec in Hr, Ht. exact (Hdisj n Hr Ht).
Qed.

Lemma reduction_transformation_disjoint_witness :
  "sum" ∈ reduction_kernels ∧ ("sum" ∉ transformation_kernels).
Proof.
  split; [by_table |].
  apply (proj1 (proj2 reduction_transformation_disjoint "sum")). by_table.
Defined.

(** C2: a name is accepted by [transform(name)] (it is in
    [transform_kernel_allowlist]) exactly when it is in the reduction table
    or in the transformation table: the allowlist is the union of the two. *)
Theorem transform_kernel_allowlist_union :
  transform_kernel_allowlist = reduction_kernels ∪ transformation_kernels
  ∧ ∀ n : string,
      (n ∈ transform_kernel_allowlist
       ↔ n ∈ reduction_kernels ∨ n ∈ transformation_kernels)
      ∧ member n transform_kernel_allowlist
        = member n reduction_kernels || member n transformation_kernels.
Proof.
  split; [reflexivity |].
  intros n.
  assert (Hiff : n ∈ transform_kernel_allowlist
                 ↔ n ∈ reduction_kernels ∨ n ∈ transformation_kernels)
    by (unfold transform_kernel_allowlist; apply elem_of_union).
  split; [exact Hiff |].
  apply eq_true_iff_eq. rewrite orb_true_iff, !member_spec. exact Hiff.
Qed.

Lemma plotting_in_common : plotting_methods ⊆ common_apply_allowlist.
Proof. unfold common_apply_allowlist. apply union_subseteq_r. Qed.

(** C6: the plotting methods ["plot"] and ["hist"] are in the series
    allowlist and in the dataframe allowlist, and in neither the reduction
    table nor the transformation table. *)
Theorem plotting_methods_allowlisted :
  plotting_methods = {["plot"; "hist"]}
  ∧ plotting_methods ⊆ series_apply_allowlist
  ∧ plotting_methods ⊆ dataframe_apply_allowlist
  ∧ ("plot" ∈ series_apply_allowlist ∧ "hist" ∈ series_apply_allowlist)
  ∧ ("plot" ∈ dataframe_apply_allowlist ∧ "hist" ∈ dataframe_apply_allowlist)
  ∧ (("plot" ∉ reduction_kernels) ∧ ("hist" ∉ reduction_kernels))
  ∧ (("plot" ∉ transformation_kernels) ∧ ("hist" ∉ transformation_kernels)).
Proof.
  split; [| split; [| split]].
  - unfold plotting_methods, frozenset. cbn [list_to_set foldr].
    rewrite (right_id_L ∅ (∪)). reflexivity.
  - intros n Hn. unfold series_apply_allowlist.
    apply elem_of_union_l, elem_of_union_l, plotting_in_common, Hn.
  - intros n Hn. unfold dataframe_apply_allowlist.
    apply elem_of_union_l, plotting_in_common, Hn.
  - repeat split; by_table.
Qed.

(** C7: ["corr"] and ["cov"] are in neither the reduction table nor the
    transformation table, and are listed among the other groupby methods. *)
Theorem corr_cov_other :
  (("corr" ∉ reduction_kernels) ∧ ("corr" ∉ transformation_kernels)
   ∧ "corr" ∈ groupby_other_methods)
  ∧ (("cov" ∉ reduction_kernels) ∧ ("cov" ∉ transformation_kernels)
     ∧ "cov" ∈ groupby_other_methods).
Proof.
  unfold reduction_kernels, transformation_kernels, groupby_other_methods.
  rewrite !frozenset_spec, !elem_of_cons, !elem_of_nil.
  split; (split; [| split]); first [absent | present].
Qed.

(** C8: ["rank"] is a transformation kernel and is on the cast blocklist,
    and it is not one of the cythonized kernels. *)
Theorem rank_classification :
  "rank" ∈ transformation_kernels
  ∧ "rank" ∈ cython_cast_blocklist
  ∧ ("rank" ∉ cythonized_kernels)
  ∧ member "rank" cythonized_kernels = false.
Proof.
  split; [by_table | split; [by_table | split; [by_table |]]].
  vm_compute. reflexivity.
Qed.

(** C9: every cythonized kernel is a transformation kernel. *)
Theorem cythonized_kernels_are_transformations :
  cythonized_kernels ⊆ transformation_kernels.
Proof.
  intros n. unfold cythonized_kernels, transformation_kernels.
  rewrite !frozenset_spec, !elem_of_cons, elem_of_nil.
  intros H. decompose [or] H; subst; first [present | contradiction].
Qed.

End KernelsFacts.

(** * Facts about ShallowMixin *)

Module ShallowMixinFacts.

Import ShallowMixin.

Section Classes.

Variable _attributes : string → list string.
Variable _constructor : string → string.
Variable issubclass : string → string → bool.

Lemma getattr_ok (self : view) (attr : string) (x : pyval) :
  v_attrs self !! attr = Some x → getattr self attr = Ok x.
Proof. unfold getattr. intros ->. reflexivity. Qed.

(** What the loop leaves in [kwargs]: an entry it was given stays, and a
    declared attribute it was not given is read from [self]. *)
Lemma fill_kwargs_lookup (self : view) (names : list string) :
  ∀ (kwargs out : gmap string pyval),
    fill_kwargs self names kwargs = Ok out →
    ∀ attr : string,
      out !! attr =
        match kwargs !! attr with
        | Some x => Some x
        | None => if bool_decide (attr ∈ names) then v_attrs self !! attr else None
        end.
Proof.
  induction names as [| a rest IH]; intros kwargs out Hfill attr; cbn in Hfill.
  - injection Hfill as <-. destruct (kwargs !! attr); reflexivity.
  - destruct (kwargs !! a) as [xa |] eqn:Ha.
    + rewrite (IH _ _ Hfill attr).
      destruct (kwargs !! attr) eqn:Hattr; [reflexivity |].
      assert (attr ≠ a) by congruence.
      rewrite (bool_decide_ext (attr ∈ a :: rest) (attr ∈ rest)); [reflexivity |].
      rewrite elem_of_cons. tauto.
    + unfold getattr in Hfill.
      destruct (v_attrs self !! a) as [x |] eqn:Hx; [| discriminate].
      cbn in Hfill. rewrite (IH _ _ Hfill attr).
      destruct (decide (attr = a)) as [-> | Hne].
      * rewrite lookup_insert_eq, Ha, Hx.
        rewrite bool_decide_eq_true_2; [reflexivity | left].
      * rewrite lookup_insert_ne by congruence.
        destruct (kwargs !! attr); [reflexivity |].
        rewrite (bool_decide_ext (attr ∈ a :: rest) (attr ∈ rest)); [reflexivity |].
        rewrite elem_of_cons. tauto.
Qed.

(** The loop succeeds when every declared attribute that was not given
    can be read from [self]. *)
Lemma fill_kwargs_total (self : view) (names : list string) :
  ∀ kwargs : gmap string pyval,
    (∀ attr, attr ∈ names → kwargs !! attr = None → is_Some (v_attrs self !! attr)) →
    ∃ out, fill_kwargs self names kwargs = Ok out.
Proof.
  induction names as [| a rest IH]; intros kwargs Hread; cbn.
  - eexists; reflexivity.
  - destruct (kwargs !! a) as [xa |] eqn:Ha.
    + apply IH. intros attr Hin. apply Hread. right. exact Hin.
    + destruct (Hread a) as [x Hx]; [left | exact Ha |].
      rewrite (getattr_ok _ _ _ Hx). cbn. apply IH.
      intros attr Hin Hnone.
      apply lookup_insert_None in Hnone as [Hnone _].
      apply Hread; [right; exact Hin | exact Hnone].
Qed.

(** The loop fails only by an unreadable attribute. *)
Lemma fill_kwargs_raise (self : view) (names : list string) :
  ∀ (kwargs : gmap string pyval) (e : exn),
    fill_kwargs self names kwargs = Raise e →
    e = AttributeError
    ∧ ∃ attr, attr ∈ names ∧ kwargs !! attr = None ∧ v_attrs self !! attr = None.
Proof.
  induction names as [| a rest IH]; intros kwargs e Hfill; cbn in Hfill.
  - discriminate.
  - destruct (kwargs !! a) as [xa |] eqn:Ha.
    + destruct (IH _ _ Hfill) as [He (attr & Hin & Hk & Hs)].
      split; [exact He |]. exists attr. split; [right; exact Hin | tauto].
    + unfold getattr in Hfill.
      destruct (v_attrs self !! a) as [x |] eqn:Hx; cbn in Hfill.
      * destruct (IH _ _ Hfill) as [He (attr & Hin & Hk & Hs)].
        split; [exact He |]. exists attr.
        apply lookup_insert_None in Hk as [Hk _].
        split; [right; exact Hin | tauto].
      * injection Hfill as <-. split; [reflexivity |].
        exists a. split; [left | tauto].
Qed.

(** C3 (as amended): [_shallow_copy] unwraps [obj] to [obj.obj] when it is
    an instance of the class that [self._constructor] answers, and passes
    any other object on as it is; the configuration of the new instance
    maps every declared attribute to the override when one was supplied and
    to the value of the source view otherwise; with no overrides, every
    declared attribute of the new instance has the value of the source
    view.  The copy is made whenever every declared attribute that has no
    override can be read from the source view. *)
Theorem shallow_copy_spec (self : view) (obj : pyobj) (kwargs : gmap string pyval) :
  (∀ new : view,
     _shallow_copy _attributes _constructor issubclass self obj kwargs = Ok new →
     v_type new = _constructor (v_type self)
     ∧ (∀ w, obj = Grouped w →
          issubclass (v_type w) (_constructor (v_type self)) = true →
          v_obj new = v_obj w)
     ∧ (isinstance issubclass obj (_constructor (v_type self)) = false →
          v_obj new = obj)
     ∧ (∀ attr, attr ∈ _attributes (v_type self) →
          getattr new attr =
            match kwargs !! attr with
            | Some x => Ok x
            | None => getattr self attr
            end)
     ∧ (kwargs = ∅ →
          ∀ attr, attr ∈ _attributes (v_type self) →
            getattr new attr = getattr self attr))
  ∧ ((∀ attr, attr ∈ _attributes (v_type self) → kwargs !! attr = None →
        is_Some (v_attrs self !! attr)) →
     ∃ new : view,
       _shallow_copy _attributes _constructor issubclass self obj kwargs = Ok new).
Proof.
  split.
  - intros new Hrun. unfold _shallow_copy in Hrun.
    destruct (fill_kwargs self (_attributes (v_type self)) kwargs)
      as [out | e] eqn:Hout; [| discriminate].
    cbn in Hrun. injection Hrun as <-.
    pose proof (fill_kwargs_lookup self _ kwargs out Hout) as Hlook.
    assert (Hcfg : ∀ attr, attr ∈ _attributes (v_type self) →
              match out !! attr with
              | Some x => Ok x
              | None => Raise AttributeError
              end =
                match kwargs !! attr with
                | Some x => Ok x
                | None => getattr self attr
                end).
    { intros attr Hin. rewrite (Hlook attr). unfold getattr.
      destruct (kwargs !! attr); [reflexivity |].
      rewrite bool_decide_eq_true_2 by exact Hin. reflexivity. }
    unfold construct. cbn.
    split; [reflexivity |]. split; [| split; [| split]].
    + intros w -> Hsub. cbn. rewrite Hsub. reflexivity.
    + intros ->. reflexivity.
    + exact Hcfg.
    + intros -> attr Hin. exact (Hcfg attr Hin).
  - intros Hread.
    destruct (fill_kwargs_total self _ kwargs Hread) as [out Hout].
    unfold _shallow_copy. rewrite Hout. cbn. eexists. reflexivity.
Qed.

End Classes.

Import Scenarios.

Lemma window_config_readable (w : Z) (attr : string) :
  attr ∈ window_attributes "Rolling" → is_Some (window_config w !! attr).
Proof.
  unfold window_attributes. rewrite !elem_of_cons, elem_of_nil.
  intros [-> | [-> | []]]; eexists; reflexivity.
Qed.

Lemma shallow_copy_spec_witness :
  ∃ new : view,
    _shallow_copy window_attributes window_constructor window_issubclass
      rolling (Grouped rolling_other) (<["window" := PInt 5]> ∅) = Ok new
    ∧ v_obj new = Data column
    ∧ getattr new "window" = Ok (PInt 5)
    ∧ getattr new "min_periods" = Ok (PInt 1).
Proof.
  pose proof (shallow_copy_spec window_attributes window_constructor
                window_issubclass rolling (Grouped rolling_other)
                (<["window" := PInt 5]> ∅)) as [Hprops Htotal].
  destruct Htotal as [new Hrun].
  - intros attr Hin _. exact (window_config_readable 3 attr Hin).
  - destruct (Hprops new Hrun) as (_ & Hunwrap & _ & Hcfg & _).
    exists new. split; [exact Hrun |]. split; [| split].
    + exact (Hunwrap rolling_other eq_refl eq_refl).
    + apply (Hcfg "window"). left.
    + apply (Hcfg "min_periods"). right. left.
Defined.

(** The claim C3 as the specification words it fails: a view of a class
    other than the constructor's is not unwrapped, and the copy wraps the
    view itself. *)
Lemma shallow_copy_keeps_foreign_view :
  _shallow_copy window_attributes window_constructor window_issubclass
    rolling (Grouped expanding) ∅
  = Ok (mkView "Rolling" (Grouped expanding) (window_config 3))
  ∧ Grouped expanding ≠ v_obj expanding
  ∧ ¬ spec_unwraps_views window_attributes window_constructor window_issubclass.
Proof.
  assert (Hrun : _shallow_copy window_attributes window_constructor
                   window_issubclass rolling (Grouped expanding) ∅
                 = Ok (mkView "Rolling" (Grouped expanding) (window_config 3)))
    by reflexivity.
  split; [exact Hrun |]. split; [discriminate |].
  intros Hspec. specialize (Hspec rolling expanding _ ∅ Hrun). discriminate Hspec.
Qed.

End ShallowMixinFacts.

(** * Facts about GotItemMixin *)

Module GotItemMixinFacts.

Import GotItemMixin.

Section Grouping.

Context {grouping : Type}.
Variable groupby_getitem : grouping → pyval → result grouping.
Variable _attributes : string → list string.

Implicit Types (self new : view grouping) (key : pyval) (subset : option frame).

(** The snapshot holds, for every name of the list, the value [self] has
    for it. *)
Lemma snapshot_lookup self (names : list string) :
  ∀ acc out : gmap string pyval,
    snapshot self names acc = Ok out →
    ∀ attr : string,
      out !! attr =
        if bool_decide (attr ∈ names) then v_attrs self !! attr else acc !! attr.
Proof.
  induction names as [| a rest IH]; intros acc out Hsnap attr; cbn in Hsnap.
  - injection Hsnap as <-. reflexivity.
  - unfold getattr in Hsnap.
    destruct (v_attrs self !! a) as [x |] eqn:Hx; [| discriminate].
    cbn in Hsnap. rewrite (IH _ _ Hsnap attr).
    destruct (decide (attr = a)) as [-> | Hne].
    + rewrite (bool_decide_eq_true_2 (a ∈ a :: rest)) by left.
      rewrite lookup_insert_eq, Hx. destruct (bool_decide (a ∈ rest)); reflexivity.
    + rewrite lookup_insert_ne by congruence.
      rewrite (bool_decide_ext (attr ∈ a :: rest) (attr ∈ rest)); [reflexivity |].
      rewrite elem_of_cons. tauto.
Qed.

Lemma snapshot_total self (names : list string) :
  ∀ acc : gmap string pyval,
    (∀ attr, attr ∈ names → is_Some (v_attrs self !! attr)) →
    ∃ out, snapshot self names acc = Ok out.
Proof.
  induction names as [| a rest IH]; intros acc Hread; cbn.
  - eexists; reflexivity.
  - destruct (Hread a) as [x Hx]; [left |].
    unfold getattr. rewrite Hx. cbn.
    apply IH. intros attr Hin. apply Hread. right. exact Hin.
Qed.

(** Reading the attributes fails only with [AttributeError]. *)
Lemma snapshot_raise self (names : list string) :
  ∀ (acc : gmap string pyval) (e : exn),
    snapshot self names acc = Raise e → e = AttributeError.
Proof.
  induction names as [| a rest IH]; intros acc e Hsnap; cbn in Hsnap.
  - discriminate.
  - unfold getattr in Hsnap.
    destruct (v_attrs self !! a) as [x |]; cbn in Hsnap.
    + exact (IH _ _ Hsnap).
    + congruence.
Qed.

(** The call of the class fails only with [TypeError], on a keyword named
    twice. *)
Lemma construct_ok (cls : string) (data : frame) (g : grouping) self
    (kwargs : gmap string pyval) :
  "groupby" ∉ dom kwargs → "parent" ∉ dom kwargs →
  construct cls data g self kwargs = Ok (mkView cls data g (Some self) kwargs ∅ None).
Proof.
  intros Hg Hp. unfold construct.
  rewrite bool_decide_eq_false_2; [reflexivity | tauto].
Qed.

Lemma construct_raise (cls : string) (data : frame) (g : grouping) self
    (kwargs : gmap string pyval) (e : exn) :
  construct cls data g self kwargs = Raise e → e = TypeError.
Proof. unfold construct. case_bool_decide; congruence. Qed.

(** Once the attributes are read and the grouping is resolved, the rest of
    [_gotitem] is the call of the class followed by the two updates of the
    fresh instance. *)
Lemma gotitem_resolved self key (ndim : Z) subset (kwargs : gmap string pyval)
    (g : grouping) :
  snapshot self (_attributes (v_type self)) ∅ = Ok kwargs →
  try_except (groupby_getitem (v_groupby self) key) is_IndexError
    (Ok (v_groupby self)) = Ok g →
  _gotitem groupby_getitem _attributes self key ndim subset =
    (new ← construct (v_type self) (default (v_obj self) subset) g self kwargs;
     Ok (mkView (v_type new) (v_obj new) (v_groupby new) (v_parent new)
           (v_attrs new) ∅
           (if records_selection (default (v_obj self) subset) key
            then Some key else v_selection new))).
Proof.
  intros Hsnap Hg. unfold _gotitem. rewrite Hsnap. cbn. rewrite Hg. cbn.
  destruct subset as [s |]; cbn;
    (destruct (construct _ _ _ _ _) as [new | e]; cbn; [| reflexivity]);
    destruct (records_selection _ key); reflexivity.
Qed.

(** The test before [self._selection = key], read as a proposition. *)
Lemma records_selection_spec (data : frame) key :
  records_selection data key = true
  ↔ f_ndim data = 2%Z
    ∧ (is_scalar key = true ∧ key ∈ f_info_axis data ∨ is_list_like key = true).
Proof.
  unfold records_selection, contains.
  rewrite andb_true_iff, orb_true_iff, andb_true_iff, Z.eqb_eq, bool_decide_eq_true.
  reflexivity.
Qed.

(** A run that returns went through every step, and the view it returns
    is determined by the attributes read and the grouping resolved. *)
Lemma gotitem_ok_inv self key (ndim : Z) subset new :
  _gotitem groupby_getitem _attributes self key ndim subset = Ok new →
  ∃ (kwargs : gmap string pyval) (g : grouping),
    snapshot self (_attributes (v_type self)) ∅ = Ok kwargs
    ∧ try_except (groupby_getitem (v_groupby self) key) is_IndexError
        (Ok (v_groupby self)) = Ok g
    ∧ new = mkView (v_type self) (default (v_obj self) subset) g (Some self)
              kwargs ∅
              (if records_selection (default (v_obj self) subset) key
               then Some key else None).
Proof.
  intros Hrun.
  destruct (snapshot self (_attributes (v_type self)) ∅) as [kwargs | e] eqn:Hsnap;
    [| unfold _gotitem in Hrun; rewrite Hsnap in Hrun; discriminate].
  destruct (try_except (groupby_getitem (v_groupby self) key) is_IndexError
              (Ok (v_groupby self))) as [g | e] eqn:Hg;
    [| unfold _gotitem in Hrun; rewrite Hsnap in Hrun; cbn in Hrun;
       rewrite Hg in Hrun; discriminate].
  rewrite (gotitem_resolved self key ndim subset kwargs g Hsnap Hg) in Hrun.
  exists kwargs, g. split; [reflexivity |]. split; [reflexivity |].
  unfold construct in Hrun. case_bool_decide; [discriminate |].
  cbn in Hrun. injection Hrun as <-. reflexivity.
Qed.

(** A run that raises raises what one of its three steps raised; the
    indexing of the grouping contributes only what is not an [IndexError]. *)
Lemma gotitem_raise_inv self key (ndim : Z) subset (e : exn) :
  _gotitem groupby_getitem _attributes self key ndim subset = Raise e →
  snapshot self (_attributes (v_type self)) ∅ = Raise e
  ∨ (groupby_getitem (v_groupby self) key = Raise e ∧ e ≠ IndexError)
  ∨ ∃ (kwargs : gmap string pyval) (g : grouping),
      construct (v_type self) (default (v_obj self) subset) g self kwargs = Raise e.
Proof.
  intros Hrun.
  destruct (snapshot self (_attributes (v_type self)) ∅) as [kwargs | e'] eqn:Hsnap;
    [| unfold _gotitem in Hrun; rewrite Hsnap in Hrun; cbn in Hrun; left; congruence].
  right.
  destruct (try_except (groupby_getitem (v_groupby self) key) is_IndexError
              (Ok (v_groupby self))) as [g | e'] eqn:Hg.
  - right. exists kwargs, g.
    rewrite (gotitem_resolved self key ndim subset kwargs g Hsnap Hg) in Hrun.
    destruct (construct _ _ g self kwargs) as [new | e']; [discriminate | exact Hrun].
  - left. unfold _gotitem in Hrun. rewrite Hsnap in Hrun. cbn in Hrun.
    rewrite Hg in Hrun. cbn in Hrun. injection Hrun as ->.
    unfold try_except in Hg.
    destruct (groupby_getitem (v_groupby self) key) as [g | e']; [discriminate |].
    destruct e'; cbn in Hg; try discriminate; injection Hg as <-;
      (split; [reflexivity | discriminate]).
Qed.

(** C4: when indexing the grouping of the parent by the key raises
    [IndexError], the error is caught and the derived view delegates to the
    grouping of the parent itself; no run of [_gotitem] ends in that
    [IndexError]; every other failure (of the indexing, of reading the
    attributes, of the call of the class) is the failure of [_gotitem]. *)
Theorem gotitem_index_error_recovered self key (ndim : Z) subset :
  (groupby_getitem (v_groupby self) key = Raise IndexError →
     (∀ kwargs : gmap string pyval,
        snapshot self (_attributes (v_type self)) ∅ = Ok kwargs →
        "groupby" ∉ dom kwargs → "parent" ∉ dom kwargs →
        ∃ new, _gotitem groupby_getitem _attributes self key ndim subset = Ok new
               ∧ v_groupby new = v_groupby self
               ∧ v_parent new = Some self)
     ∧ (∀ new, _gotitem groupby_getitem _attributes self key ndim subset = Ok new →
               v_groupby new = v_groupby self))
  ∧ _gotitem groupby_getitem _attributes self key ndim subset ≠ Raise IndexError
  ∧ (∀ (e : exn) (kwargs : gmap string pyval),
       snapshot self (_attributes (v_type self)) ∅ = Ok kwargs →
       groupby_getitem (v_groupby self) key = Raise e → e ≠ IndexError →
       _gotitem groupby_getitem _attributes self key ndim subset = Raise e)
  ∧ (∀ e : exn,
       snapshot self (_attributes (v_type self)) ∅ = Raise e →
       _gotitem groupby_getitem _attributes self key ndim subset = Raise e)
  ∧ (∀ (e : exn) (kwargs : gmap string pyval) (g : grouping),
       snapshot self (_attributes (v_type self)) ∅ = Ok kwargs →
       try_except (groupby_getitem (v_groupby self) key) is_IndexError
         (Ok (v_groupby self)) = Ok g →
       construct (v_type self) (default (v_obj self) subset) g self kwargs = Raise e →
       _gotitem groupby_getitem _attributes self key ndim subset = Raise e).
Proof.
  split; [| split; [| split; [| split]]].
  - intros Hidx.
    assert (Hg : try_except (groupby_getitem (v_groupby self) key) is_IndexError
                   (Ok (v_groupby self)) = Ok (v_groupby self))
      by (rewrite Hidx; reflexivity).
    split.
    + intros kwargs Hsnap Hgb Hpar.
      rewrite (gotitem_resolved self key ndim subset kwargs _ Hsnap Hg).
      rewrite (construct_ok _ _ _ _ _ Hgb Hpar). cbn.
      eexists. split; [reflexivity |]. split; reflexivity.
    + intros new Hrun.
      destruct (gotitem_ok_inv _ _ _ _ _ Hrun) as (kwargs & g & _ & Hg' & ->).
      cbn. congruence.
  - intros Hrun.
    destruct (gotitem_raise_inv _ _ _ _ _ Hrun) as [Hs | [[_ Hne] | (kw & g & Hc)]].
    + apply snapshot_raise in Hs. discriminate.
    + congruence.
    + apply construct_raise in Hc. discriminate.
  - intros e kwargs Hsnap Hidx Hne.
    unfold _gotitem. rewrite Hsnap. cbn. rewrite Hidx.
    destruct e; try reflexivity. congruence.
  - intros e Hsnap. unfold _gotitem. rewrite Hsnap. reflexivity.
  - intros e kwargs g Hsnap Hg Hc.
    rewrite (gotitem_resolved self key ndim subset kwargs g Hsnap Hg), Hc.
    reflexivity.
Qed.

(** [_gotitem] returns when the declared attributes can be read, none of
    them is named [groupby] or [parent], and the indexing of the grouping
    gives a grouping or raises [IndexError]. *)
Lemma gotitem_returns self key (ndim : Z) subset :
  (∀ attr, attr ∈ _attributes (v_type self) → is_Some (v_attrs self !! attr)) →
  "groupby" ∉ _attributes (v_type self) →
  "parent" ∉ _attributes (v_type self) →
  (∀ e, groupby_getitem (v_groupby self) key = Raise e → e = IndexError) →
  ∃ new, _gotitem groupby_getitem _attributes self key ndim subset = Ok new.
Proof.
  intros Hread Hgb Hpar Hidx.
  destruct (snapshot_total self _ ∅ Hread) as [kwargs Hsnap].
  pose proof (snapshot_lookup self _ ∅ kwargs Hsnap) as Hlook.
  assert (Hg : ∃ g, try_except (groupby_getitem (v_groupby self) key)
                      is_IndexError (Ok (v_groupby self)) = Ok g).
  { destruct (groupby_getitem (v_groupby self) key) as [g | e] eqn:Hget.
    - exists g. reflexivity.
    - rewrite (Hidx e eq_refl). exists (v_groupby self). reflexivity. }
  destruct Hg as [g Hg].
  rewrite (gotitem_resolved self key ndim subset kwargs g Hsnap Hg).
  rewrite construct_ok; [cbn; eexists; reflexivity | |].
  - apply not_elem_of_dom. rewrite Hlook.
    rewrite bool_decide_eq_false_2 by exact Hgb. apply lookup_empty.
  - apply not_elem_of_dom. rewrite Hlook.
    rewrite bool_decide_eq_false_2 by exact Hpar. apply lookup_empty.
Qed.

(** C5 (as amended): in the view that [_gotitem] returns, the selection is
    the key exactly when the data subset is two-dimensional and the key is
    either a scalar found in the column set of the subset or any list-like
    object (whatever it holds); in every other case the selection is left
    unset.  Such a view is returned whenever the attributes can be read,
    no attribute clashes with a keyword of the call, and the indexing of
    the grouping does not fail otherwise than by [IndexError]. *)
Theorem gotitem_selection self key (ndim : Z) subset :
  (∀ new,
     _gotitem groupby_getitem _attributes self key ndim subset = Ok new →
     v_selection new
     = (if records_selection (default (v_obj self) subset) key
        then Some key else None)
     ∧ (v_selection new = Some key
        ↔ f_ndim (default (v_obj self) subset) = 2%Z
          ∧ (is_scalar key = true ∧ key ∈ f_info_axis (default (v_obj self) subset)
             ∨ is_list_like key = true))
     ∧ (v_selection new = None
        ↔ ¬ (f_ndim (default (v_obj self) subset) = 2%Z
             ∧ (is_scalar key = true
                ∧ key ∈ f_info_axis (default (v_obj self) subset)
                ∨ is_list_like key = true))))
  ∧ ((∀ attr, attr ∈ _attributes (v_type self) → is_Some (v_attrs self !! attr)) →
     "groupby" ∉ _attributes (v_type self) →
     "parent" ∉ _attributes (v_type self) →
     (∀ e, groupby_getitem (v_groupby self) key = Raise e → e = IndexError) →
     ∃ new, _gotitem groupby_getitem _attributes self key ndim subset = Ok new).
Proof.
  split; [| apply gotitem_returns].
  intros new Hrun.
  destruct (gotitem_ok_inv _ _ _ _ _ Hrun) as (kwargs & g & _ & _ & ->). cbn.
  split; [reflexivity |].
  rewrite <- records_selection_spec.
  destruct (records_selection (default (v_obj self) subset) key); split; split;
    congruence.
Qed.

(** C10: the result of [_gotitem] does not depend on its [ndim] argument:
    the calls with [ndim = 1] and with [ndim = 2] give equal results, as do
    the calls with any two values. *)
Theorem gotitem_ndim_irrelevant self key subset :
  _gotitem groupby_getitem _attributes self key 1 subset
  = _gotitem groupby_getitem _attributes self key 2 subset
  ∧ ∀ n m : Z,
      _gotitem groupby_getitem _attributes self key n subset
      = _gotitem groupby_getitem _attributes self key m subset.
Proof. split; [| intros n m]; reflexivity. Qed.

End Grouping.

Import Scenarios.

Ltac by_decide := apply (bool_decide_unpack _); vm_compute; exact I.

Lemma gotitem_index_error_recovered_witness :
  (picked_getitem narrowed_grouping (PStr "B") = Raise IndexError
   ∧ ∃ new,
       _gotitem picked_getitem window_attributes
         (root_view narrowed_grouping) (PStr "B") 1 None = Ok new
       ∧ v_groupby new = narrowed_grouping
       ∧ v_parent new = Some (root_view narrowed_grouping))
  ∧ (picked_getitem fresh_grouping (PStr "Z") = Raise KeyError
     ∧ _gotitem picked_getitem window_attributes
         (root_view fresh_grouping) (PStr "Z") 1 None = Raise KeyError).
Proof.
  split; (split; [reflexivity |]).
  - apply (proj1 (proj1 (gotitem_index_error_recovered picked_getitem
                           window_attributes (root_view narrowed_grouping)
                           (PStr "B") 1 None) eq_refl) (window_config 3)).
    + reflexivity.
    + by_decide.
    + by_decide.
  - apply (proj1 (proj2 (proj2 (gotitem_index_error_recovered picked_getitem
                                  window_attributes (root_view fresh_grouping)
                                  (PStr "Z") 1 None)))
             KeyError (window_config 3)).
    + reflexivity.
    + reflexivity.
    + discriminate.
Defined.

Lemma gotitem_selection_witness :
  let picked := mkPicked (g_columns fresh_grouping) (Some (PStr "A")) in
  let new := mkView "RollingGroupby" table picked (Some (root_view fresh_grouping))
               (window_config 3) ∅ (Some (PStr "A")) in
  _gotitem picked_getitem window_attributes
    (root_view fresh_grouping) (PStr "A") 2 None = Ok new
  ∧ v_selection new = Some (PStr "A").
Proof.
  intros picked new.
  assert (Hrun : _gotitem picked_getitem window_attributes
                   (root_view fresh_grouping) (PStr "A") 2 None = Ok new)
    by reflexivity.
  split; [exact Hrun |].
  exact (proj1 (proj1 (gotitem_selection picked_getitem window_attributes
                         (root_view fresh_grouping) (PStr "A") 2 None)
                  new Hrun)).
Defined.

(** The claim C5 as the specification words it fails: a list-like key is
    recorded as the selection although the identifier it holds is not in
    the column set of the data. *)
Lemma gotitem_selects_unknown_list :
  let key := PList [PStr "Z"] in
  _gotitem picked_getitem window_attributes
    (root_view narrowed_grouping) key 2 None
  = Ok (mkView "RollingGroupby" table narrowed_grouping
          (Some (root_view narrowed_grouping)) (window_config 3) ∅ (Some key))
  ∧ f_ndim table = 2%Z
  ∧ (PStr "Z" ∉ f_info_axis table)
  ∧ spec_records_selection table key = false.
Proof.
  cbv zeta. split; [reflexivity |]. split; [reflexivity |].
  split; [by_decide | reflexivity].
Qed.

End GotItemMixinFacts.

(** * Further facts about the kernel tables *)

Module KernelsExtra.

Import Kernels.

(** A closed question about the literal tables, settled by running its
    decision procedure. *)
Ltac table_decide := apply (bool_decide_unpack _); vm_compute; exact I.

Lemma member_true (name : string) (table : gset string) :
  member name table = true ↔ name ∈ table.
Proof. unfold member. apply bool_decide_eq_true. Qed.

(** X1: the methods listed as "other" belong to neither kernel table, so
    none of them is a valid name for [transform(name)]. *)
Theorem other_methods_unclassified :
  groupby_other_methods ## reduction_kernels
  ∧ groupby_other_methods ## transformation_kernels
  ∧ ∀ n : string,
      member n groupby_other_methods && member n transform_kernel_allowlist = false.
Proof.
  assert (Hr : groupby_other_methods ## reduction_kernels) by table_decide.
  assert (Ht : groupby_other_methods ## transformation_kernels) by table_decide.
  split; [exact Hr |]. split; [exact Ht |].
  intros n. apply andb_false_iff.
  destruct (member n groupby_other_methods) eqn:Ho; [right | left; reflexivity].
  apply not_true_is_false. intros Ha.
  apply member_true in Ho, Ha. unfold transform_kernel_allowlist in Ha.
  apply elem_of_union in Ha as [Ha | Ha]; [exact (Hr n Ho Ha) | exact (Ht n Ho Ha)].
Qed.

(** X2: the series allowlist and the dataframe allowlist share exactly the
    common allowlist; the names added for one kind of object are not
    allowed on the other. *)
Theorem apply_allowlists_share_common :
  series_apply_allowlist ∩ dataframe_apply_allowlist = common_apply_allowlist
  ∧ series_apply_allowlist ∖ common_apply_allowlist
    = {["nlargest"; "nsmallest"; "is_monotonic_increasing";
        "is_monotonic_decreasing"; "dtype"; "unique"]}
  ∧ dataframe_apply_allowlist ∖ common_apply_allowlist = {["dtypes"; "corrwith"]}.
Proof. split; [| split]; table_decide. Qed.

(** X3: every name on the cast blocklist is a valid name for
    [transform(name)], and no cythonized kernel is on the cast blocklist. *)
Theorem cast_blocklist_classified :
  cython_cast_blocklist ⊆ transform_kernel_allowlist
  ∧ cython_cast_blocklist ## cythonized_kernels.
Proof.
  split; [| table_decide].
  intros n. unfold cython_cast_blocklist, frozenset.
  rewrite elem_of_list_to_set, !elem_of_cons, elem_of_nil.
  intros H. decompose [or] H; subst; first [table_decide | contradiction].
Qed.

(** X4: every name of the dataframe allowlist is listed in one of the three
    method tables (reduction, transformation, other); the names of the
    series allowlist that are in none of them are the six names added for
    series alone. *)
Theorem dataframe_allowlist_categorized :
  dataframe_apply_allowlist
  ⊆ reduction_kernels ∪ transformation_kernels ∪ groupby_other_methods
  ∧ series_apply_allowlist
    ∖ (reduction_kernels ∪ transformation_kernels ∪ groupby_other_methods)
    = {["nlargest"; "nsmallest"; "is_monotonic_increasing";
        "is_monotonic_decreasing"; "dtype"; "unique"]}.
Proof. split; table_decide. Qed.

End KernelsExtra.

(** * Facts about the declared part of an attribute dictionary *)

Module DeclaredFacts.

Lemma declared_lookup (names : list string) (attrs : gmap string pyval)
    (attr : string) :
  declared names attrs !! attr
  = if bool_decide (attr ∈ names) then attrs !! attr else None.
Proof.
  unfold declared. rewrite map_lookup_filter.
  destruct (attrs !! attr) as [x |]; cbn.
  - case_bool_decide; case_guard; cbn in *; done.
  - case_bool_decide; reflexivity.
Qed.

Lemma declared_ext (names names' : list string) (attrs : gmap string pyval) :
  (∀ a, a ∈ names ↔ a ∈ names') → declared names attrs = declared names' attrs.
Proof.
  intros Hsame. apply map_eq. intros attr. rewrite !declared_lookup.
  rewrite (bool_decide_ext _ _ (Hsame attr)). reflexivity.
Qed.


Lemma declared_id (names : list string) (attrs : gmap string pyval) :
  (∀ a, is_Some (attrs !! a) → a ∈ names) → declared names attrs = attrs.
Proof.
  intros Hkeys. apply map_eq. intros attr. rewrite declared_lookup.
  case_bool_decide as Hin; [reflexivity |].
  destruct (attrs !! attr) as [x |] eqn:Hx; [| reflexivity].
  exfalso. apply Hin, Hkeys. rewrite Hx. eexists; reflexivity.
Qed.

End DeclaredFacts.

(** * Further facts about ShallowMixin *)

Module ShallowMixinExtra.

Import ShallowMixin DeclaredFacts.

Section Classes.

Variable _attributes : string → list string.
Variable _constructor : string → string.
Variable issubclass : string → string → bool.

(** A loop that ends well has read every declared attribute that was not
    given. *)
Lemma fill_kwargs_readable (self : view) (names : list string) :
  ∀ kwargs out : gmap string pyval,
    fill_kwargs self names kwargs = Ok out →
    ∀ attr, attr ∈ names → kwargs !! attr = None → is_Some (v_attrs self !! attr).
Proof.
  induction names as [| a rest IH]; intros kwargs out Hfill attr Hin Hnone.
  - apply elem_of_nil in Hin as [].
  - cbn in Hfill. destruct (kwargs !! a) as [xa |] eqn:Ha.
    + apply elem_of_cons in Hin as [-> | Hin]; [congruence |].
      exact (IH _ _ Hfill attr Hin Hnone).
    + unfold getattr in Hfill.
      destruct (v_attrs self !! a) as [x |] eqn:Hx; [| discriminate].
      cbn in Hfill. destruct (decide (attr = a)) as [-> | Hne].
      * rewrite Hx. eexists; reflexivity.
      * apply elem_of_cons in Hin as [-> | Hin]; [congruence |].
        apply (IH _ _ Hfill attr Hin). rewrite lookup_insert_ne by congruence.
        exact Hnone.
Qed.

(** The dictionary the loop builds: what it was given, completed by the
    declared attributes of [self]. *)
Lemma fill_kwargs_union (self : view) (names : list string)
    (kwargs out : gmap string pyval) :
  fill_kwargs self names kwargs = Ok out →
  out = kwargs ∪ declared names (v_attrs self).
Proof.
  intros Hfill. apply map_eq. intros attr.
  rewrite (ShallowMixinFacts.fill_kwargs_lookup _attributes _constructor issubclass
             self names kwargs out Hfill attr).
  rewrite lookup_union, declared_lookup.
  destruct (kwargs !! attr) as [x |].
  - destruct (if bool_decide (attr ∈ names) then v_attrs self !! attr else None);
      reflexivity.
  - rewrite (left_id_L None (∪)). reflexivity.
Qed.

(** The loop depends on the set of declared names only: neither their
    order nor a repetition changes its outcome. *)
Lemma fill_kwargs_ext (self : view) (names names' : list string)
    (kwargs : gmap string pyval) :
  (∀ a, a ∈ names ↔ a ∈ names') →
  fill_kwargs self names kwargs = fill_kwargs self names' kwargs.
Proof.
  intros Hsame.
  destruct (fill_kwargs self names kwargs) as [out | e] eqn:H1;
    destruct (fill_kwargs self names' kwargs) as [out' | e'] eqn:H2.
  - rewrite (fill_kwargs_union _ _ _ _ H1), (fill_kwargs_union _ _ _ _ H2).
    rewrite (declared_ext names names' _ Hsame). reflexivity.
  - destruct (ShallowMixinFacts.fill_kwargs_raise _attributes _constructor issubclass
                _ _ _ _ H2)
      as [_ (attr & Hin & Hk & Hs)].
    destruct (fill_kwargs_readable _ _ _ _ H1 attr) as [x Hx];
      [apply Hsame, Hin | exact Hk | congruence].
  - destruct (ShallowMixinFacts.fill_kwargs_raise _attributes _constructor issubclass
                _ _ _ _ H1)
      as [_ (attr & Hin & Hk & Hs)].
    destruct (fill_kwargs_readable _ _ _ _ H2 attr) as [x Hx];
      [apply Hsame, Hin | exact Hk | congruence].
  - destruct (ShallowMixinFacts.fill_kwargs_raise _attributes _constructor issubclass
                _ _ _ _ H1) as [-> _].
    destruct (ShallowMixinFacts.fill_kwargs_raise _attributes _constructor issubclass
                _ _ _ _ H2) as [-> _].
    reflexivity.
Qed.

(** The configuration of a copy, as a dictionary. *)
Lemma shallow_copy_attrs (self : view) (obj : pyobj)
    (kwargs : gmap string pyval) (new : view) :
  _shallow_copy _attributes _constructor issubclass self obj kwargs = Ok new →
  v_attrs new = kwargs ∪ declared (_attributes (v_type self)) (v_attrs self).
Proof.
  intros Hrun. unfold _shallow_copy in Hrun.
  destruct (fill_kwargs self (_attributes (v_type self)) kwargs)
    as [out | e] eqn:Hout; [| discriminate].
  cbn in Hrun. injection Hrun as <-. cbn.
  exact (fill_kwargs_union _ _ _ _ Hout).
Qed.

(** X5: the configuration of the copy is the keyword arguments completed
    by the declared attributes of the source view, the keyword arguments
    taking precedence; an undeclared keyword is passed on as it is, and an
    undeclared attribute of the source view is not copied. *)
Theorem shallow_copy_config (self : view) (obj : pyobj)
    (kwargs : gmap string pyval) (new : view) :
  _shallow_copy _attributes _constructor issubclass self obj kwargs = Ok new →
  v_attrs new = kwargs ∪ declared (_attributes (v_type self)) (v_attrs self)
  ∧ ∀ attr, attr ∉ _attributes (v_type self) → v_attrs new !! attr = kwargs !! attr.
Proof.
  intros Hrun. rewrite (shallow_copy_attrs self obj kwargs new Hrun).
  split; [reflexivity |].
  intros attr Hnot. apply lookup_union_l. rewrite declared_lookup.
  rewrite bool_decide_eq_false_2 by exact Hnot. reflexivity.
Qed.

(** X6: [_shallow_copy] fails exactly when some declared attribute has no
    override and cannot be read from the source view, and then it raises
    [AttributeError]; with an override for every unreadable attribute it
    cannot fail. *)
Theorem shallow_copy_raises (self : view) (obj : pyobj)
    (kwargs : gmap string pyval) (e : exn) :
  _shallow_copy _attributes _constructor issubclass self obj kwargs = Raise e
  ↔ e = AttributeError
    ∧ ∃ attr, attr ∈ _attributes (v_type self)
              ∧ kwargs !! attr = None
              ∧ v_attrs self !! attr = None.
Proof.
  unfold _shallow_copy.
  destruct (fill_kwargs self (_attributes (v_type self)) kwargs)
    as [out | e'] eqn:Hout; cbn.
  - split; [discriminate |].
    intros [_ (attr & Hin & Hk & Hs)].
    destruct (fill_kwargs_readable _ _ _ _ Hout attr Hin Hk) as [x Hx]. congruence.
  - destruct (ShallowMixinFacts.fill_kwargs_raise _attributes _constructor
                issubclass _ _ _ _ Hout) as [-> Hex].
    split.
    + intros [= <-]. split; [reflexivity | exact Hex].
    + intros [-> _]. reflexivity.
Qed.

(** X7: copying is idempotent.  When the constructor class keeps itself as
    its constructor and declares the same attributes, and every override of
    the first copy is a declared attribute, copying the first copy around
    the same object with no overrides gives the first copy again. *)
Theorem shallow_copy_idempotent (self : view) (obj : pyobj)
    (kwargs : gmap string pyval) (new : view) :
  _constructor (_constructor (v_type self)) = _constructor (v_type self) →
  (∀ a, a ∈ _attributes (_constructor (v_type self))
        ↔ a ∈ _attributes (v_type self)) →
  (∀ a, is_Some (kwargs !! a) → a ∈ _attributes (v_type self)) →
  _shallow_copy _attributes _constructor issubclass self obj kwargs = Ok new →
  _shallow_copy _attributes _constructor issubclass new obj ∅ = Ok new.
Proof.
  intros Hctor Hattrs Hkeys Hrun.
  pose proof (shallow_copy_attrs self obj kwargs new Hrun) as Hcfg.
  unfold _shallow_copy in Hrun.
  destruct (fill_kwargs self (_attributes (v_type self)) kwargs)
    as [out | e] eqn:Hout; [| discriminate].
  cbn in Hrun. injection Hrun as <-. cbn in Hcfg.
  unfold _shallow_copy, construct. cbn [v_type v_obj v_attrs]. rewrite Hctor.
  rewrite (fill_kwargs_ext _ _ (_attributes (v_type self)) ∅ Hattrs).
  destruct (ShallowMixinFacts.fill_kwargs_total
              (mkView (_constructor (v_type self))
                 (if isinstance issubclass obj (_constructor (v_type self))
                  then unwrap obj else obj) out)
              (_attributes (v_type self)) ∅) as [out2 Hout2].
  { intros attr Hin _. cbn. rewrite Hcfg, lookup_union.
    destruct (kwargs !! attr) as [x |] eqn:Hk.
    - destruct (declared _ _ !! attr); eexists; reflexivity.
    - rewrite (left_id_L None (∪)), declared_lookup.
      rewrite bool_decide_eq_true_2 by exact Hin.
      exact (fill_kwargs_readable _ _ _ _ Hout attr Hin Hk). }
  rewrite Hout2. cbn. f_equal. f_equal.
  rewrite (fill_kwargs_union _ _ _ _ Hout2). cbn.
  rewrite (left_id_L ∅ (∪)). apply declared_id.
  intros a. rewrite Hcfg, lookup_union_is_Some. intros [Hk | Hd].
  - exact (Hkeys a Hk).
  - rewrite declared_lookup in Hd. case_bool_decide; [assumption |].
    destruct Hd as [? [=]].
Qed.


End Classes.

Import Scenarios.

Lemma shallow_copy_config_witness :
  ∃ new : view,
    _shallow_copy window_attributes window_constructor window_issubclass
      rolling (Data column)
      (<["window" := PInt 5]> (<["closed" := PStr "left"]> ∅)) = Ok new
    ∧ v_attrs new !! "closed" = Some (PStr "left")
    ∧ v_attrs new
      = <["window" := PInt 5]> (<["closed" := PStr "left"]> ∅)
        ∪ declared ["window"; "min_periods"] (window_config 3).
Proof.
  eexists. split; [reflexivity |].
  pose proof (shallow_copy_config window_attributes window_constructor
                window_issubclass rolling (Data column)
                (<["window" := PInt 5]> (<["closed" := PStr "left"]> ∅))
                _ eq_refl) as [Hcfg Hother].
  split; [| exact Hcfg].
  rewrite (Hother "closed"); [reflexivity |].
  unfold window_attributes. cbn. rewrite !elem_of_cons, elem_of_nil.
  intros [H | [H | []]]; discriminate H.
Defined.

Lemma shallow_copy_raises_witness :
  _shallow_copy window_attributes window_constructor window_issubclass
    (mkView "Rolling" (Data table) (<["window" := PInt 3]> ∅)) (Data column) ∅
  = Raise AttributeError.
Proof.
  apply (proj2 (shallow_copy_raises window_attributes window_constructor
                  window_issubclass
                  (mkView "Rolling" (Data table) (<["window" := PInt 3]> ∅))
                  (Data column) ∅ AttributeError)).
  split; [reflexivity |].
  exists "min_periods". split; [right; left | split; reflexivity].
Defined.

Lemma shallow_copy_idempotent_witness :
  let first := mkView "Rolling" (Data column) (window_config 5) in
  _shallow_copy window_attributes window_constructor window_issubclass
    rolling (Grouped rolling_other) (<["window" := PInt 5]> ∅) = Ok first
  ∧ _shallow_copy window_attributes window_constructor window_issubclass
      first (Grouped rolling_other) ∅ = Ok first.
Proof.
  intros first.
  assert (Hrun : _shallow_copy window_attributes window_constructor
                   window_issubclass rolling (Grouped rolling_other)
                   (<["window" := PInt 5]> ∅) = Ok first) by reflexivity.
  split; [exact Hrun |].
  apply (shallow_copy_idempotent window_attributes window_constructor
           window_issubclass rolling (Grouped rolling_other)
           (<["window" := PInt 5]> ∅) first).
  - reflexivity.
  - intros a. reflexivity.
  - intros a [x Hx]. destruct (decide (a = "window")) as [-> | Hne]; [left |].
    rewrite lookup_insert_ne, lookup_empty in Hx by congruence. discriminate Hx.
  - exact Hrun.
Defined.


End ShallowMixinExtra.

(** * Further facts about GotItemMixin *)

Module GotItemMixinExtra.

Import GotItemMixin DeclaredFacts.

Section Grouping.

Context {grouping : Type}.
Variable groupby_getitem : grouping → pyval → result grouping.
Variable _attributes : string → list string.

Implicit Types (self new : view grouping) (key : pyval) (subset : option frame).








(** X10: when indexing the grouping of [self] by the key gives a grouping,
    the view that [_gotitem] returns delegates to that grouping; in every
    returning run the grouping of the new view is either the one the
    indexing gave or the grouping of [self]. *)
Theorem gotitem_narrowed_grouping self key (ndim : Z) subset new :
  _gotitem groupby_getitem _attributes self key ndim subset = Ok new →
  (∀ g, groupby_getitem (v_groupby self) key = Ok g → v_groupby new = g)
  ∧ (groupby_getitem (v_groupby self) key = Ok (v_groupby new)
     ∨ groupby_getitem (v_groupby self) key = Raise IndexError
       ∧ v_groupby new = v_groupby self).
Proof.
  intros Hrun.
  destruct (GotItemMixinFacts.gotitem_ok_inv _ _ _ _ _ _ _ Hrun)
    as (kwargs & g & _ & Hg & ->). cbn.
  unfold try_except in Hg.
  destruct (groupby_getitem (v_groupby self) key) as [g' | e].
  - injection Hg as ->. split; [intros g0 [= <-]; reflexivity | left; reflexivity].
  - split; [intros g0 [=] |]. right.
    destruct e; cbn in Hg; try discriminate. injection Hg as <-.
    split; reflexivity.
Qed.



End Grouping.

Import Scenarios.


Lemma gotitem_narrowed_grouping_witness :
  ∃ new,
    _gotitem picked_getitem window_attributes (root_view fresh_grouping)
      (PStr "A") 1 None = Ok new
    ∧ v_groupby new = mkPicked (g_columns fresh_grouping) (Some (PStr "A")).
Proof.
  eexists. split; [reflexivity |].
  exact (proj1 (gotitem_narrowed_grouping picked_getitem window_attributes
                  (root_view fresh_grouping) (PStr "A") 1 None _ eq_refl)
           _ eq_refl).
Defined.



End GotItemMixinExtra.
